(** * network_monitor: endpoints with an owned C-string address

    Shallow embedding of [network.h], [network.cpp] and [main.cpp], and of
    [isValidIPv4] as the README prints it.

    The program keeps the address of a connection in a [char*] buffer that
    the constructor allocates with [new char[]] and fills with [strcpy].
    Ownership and aliasing are therefore properties of the store, and the
    embedding keeps the store explicit: a block-structured heap, pointers
    into blocks, and a monad for computations that read and write the heap
    and append to [std::cout]. *)

From Stdlib Require Import ZArith String Ascii DecimalString DecimalPos DecimalZ.
From stdpp Require Import gmap strings list.


(** ** Store *)

(** A [char] cell is either initialised or still indeterminate, as the cells
    of a block obtained from [new char[n]] are. *)
Definition cell : Type := option ascii.

(** The terminator of a C string. *)
Definition NUL : ascii := Ascii.zero.

(** A [char*]: a block and an offset into it. *)
Record ptr : Type := Ptr { blk : positive; off : nat }.

Record state : Type := State {
  heap : gmap positive (list cell);
  cout : string
}.

(** Modelled from the spec: the error taxonomy of section 7.  The source
    has no [throw]; the type is here so that "fails with InvalidArgument"
    can be said of a computation. *)
Inductive exn : Type := InvalidArgument.

(** The three ways a C++ computation ends: it returns, it throws, or its
    behaviour is undefined. *)
Inductive result (A : Type) : Type :=
  | Normal (a : A) (st : state)
  | Raise (e : exn) (st : state)
  | Undefined.
Arguments Normal {A} a st.
Arguments Raise {A} e st.
Arguments Undefined {A}.

Definition M (A : Type) : Type := state → result A.

#[global] Instance M_ret : MRet M := λ A (a : A) st, Normal a st.

#[global] Instance M_bind : MBind M := λ A B (k : A → M B) (m : M A) st,
  match m st with
  | Normal a st' => k a st'
  | Raise e st' => Raise e st'
  | Undefined => Undefined
  end.

(** ** C strings in the store *)

(** The text of the C string that starts at the head of [cs]: the characters
    before the first [NUL].  Running off the block, or into an indeterminate
    cell, is undefined. *)
Fixpoint cstr_of_cells (cs : list cell) : option string :=
  match cs with
  | Some c :: cs' =>
      if decide (c = NUL) then Some "" else String c <$> cstr_of_cells cs'
  | _ => None
  end.

Definition read_cstr (h : gmap positive (list cell)) (p : ptr) : option string :=
  cs ← h !! blk p; cstr_of_cells (drop (off p) cs).

(** The cells a C string occupies: its characters and the terminator. *)
Fixpoint cells_of_string (s : string) : list cell :=
  match s with
  | "" => [Some NUL]
  | String c s' => Some c :: cells_of_string s'
  end.

(** ** The library calls the constructor makes *)

(** [strlen(p)] *)
Definition strlen (p : ptr) : M nat := λ st,
  match read_cstr (heap st) p with
  | Some s => Normal (String.length s) st
  | None => Undefined
  end.

(** [new char[n]]: a block that no live pointer names, of [n] indeterminate
    cells.  The store is unbounded: allocation does not fail. *)
Definition new_char_array (n : nat) : M ptr := λ st,
  let b := fresh (dom (heap st)) in
  Normal (Ptr b 0) (State (<[b := replicate n None]> (heap st)) (cout st)).

(** Overwrite the cells from [p] on with [new]; out of bounds is undefined. *)
Definition store_cells (p : ptr) (new : list cell) : M unit := λ st,
  match heap st !! blk p with
  | Some cs =>
      if decide (off p + length new ≤ length cs) then
        Normal tt
          (State (<[blk p := take (off p) cs ++ new
                               ++ drop (off p + length new) cs]> (heap st))
                 (cout st))
      else Undefined
  | None => Undefined
  end.

(** [strcpy(dst, src)]: copies the string at [src], terminator included, and
    returns [dst].  Overlapping source and destination are undefined. *)
Definition strcpy (dst src : ptr) : M ptr := λ st,
  match read_cstr (heap st) src with
  | Some s =>
      let n := S (String.length s) in
      if decide (blk dst = blk src ∧ off dst < off src + n ∧ off src < off dst + n)
      then Undefined
      else (store_cells dst (cells_of_string s) ;; mret dst) st
  | None => Undefined
  end.

(** ** [std::cout] *)

Definition newline : string := String "010"%char "".

(** [cout << "literal"] *)
Definition cout_put (s : string) : M unit := λ st,
  Normal tt (State (heap st) (cout st +:+ s)).

(** [cout << p] for a [char* p] *)
Definition cout_cstr (p : ptr) : M unit := λ st,
  match read_cstr (heap st) p with
  | Some s => cout_put s st
  | None => Undefined
  end.

(** The decimal rendering [operator<<(int)] produces under the default
    formatting of the stream, which the program never changes. *)
Definition dec (n : Z) : string := NilZero.string_of_int (Z.to_int n).

(** [cout << n] for an [int n] *)
Definition cout_int (n : Z) : M unit := cout_put (dec n).

(** [cout << std::endl] *)
Definition cout_endl : M unit := cout_put newline.

(** The values of a 32-bit [int]. *)
Definition int_range (n : Z) : Prop := (- 2 ^ 31 ≤ n < 2 ^ 31)%Z.

(** ** [class TCPConnection] (network.h, network.cpp) *)

Record TCPConnection : Type := {
  ipAddress : ptr;
  port : Z
}.

(** [[
TCPConnection::TCPConnection(const char* ip, int p) : port(p) {
    ipAddress = new char[strlen(ip) + 1];
    strcpy(ipAddress, ip);
}
]] *)
Definition TCPConnection_ctor (ip : ptr) (p : Z) : M TCPConnection :=
  n ← strlen ip;
  buf ← new_char_array (n + 1);
  strcpy buf ip ;;
  mret {| ipAddress := buf; port := p |}.

(** [[
void TCPConnection::displayInfo() const {
    std::cout << "TCP Connection: " << ipAddress << ":" << port << std::endl;
}
]] *)
Definition TCPConnection_displayInfo (this : TCPConnection) : M unit :=
  cout_put "TCP Connection: " ;;
  cout_cstr (ipAddress this) ;;
  cout_put ":" ;;
  cout_int (port this) ;;
  cout_endl.

(** [network.h] declares no copy constructor for [TCPConnection], so the
    one the compiler supplies copies member by member: the pointer, not the
    characters. *)
Definition TCPConnection_copy (other : TCPConnection) : M TCPConnection :=
  mret {| ipAddress := ipAddress other; port := port other |}.

(** One line of output: the text and the line terminator. *)
Definition line (s : string) : string := s +:+ newline.

(** The storage of the string literal ["192.168.1.1"] of [main]. *)
Definition lit_ip : ptr := Ptr 1 0.

Definition static_storage : gmap positive (list cell) :=
  {[ 1%positive := cells_of_string "192.168.1.1" ]}.

Definition initial_state : state := State static_storage "".

Section Main.

(** [printSystemInfo] is declared in [utils.h] and defined in [utils.cpp];
    [main] only calls it. *)
Variable printSystemInfo : M unit.

(** [[
int main() {
  std::cout << "=== Network Monitor ===" << std::endl;
  printSystemInfo();
  TCPConnection conn("192.168.1.1", 8080);
  conn.displayInfo();
  std::cout << "Program completed successfully!" << std::endl;
  return 0;
}
]] *)
Definition main : M Z :=
  cout_put "=== Network Monitor ===" ;; cout_endl ;;
  printSystemInfo ;;
  conn ← TCPConnection_ctor lit_ip 8080;
  TCPConnection_displayInfo conn ;;
  cout_put "Program completed successfully!" ;; cout_endl ;;
  mret 0%Z.

End Main.

(** ** The endpoint abstraction of the specification

    [network.h] declares one class, [TCPConnection], with a constructor and
    [displayInfo]; it has no [duplicate], no transport kind other than TCP
    and no collection of connections.  The definitions of this part follow
    the specification and live in the same store as the code above, so that
    ownership of the address buffer can be stated. *)

(** Modelled from the spec: the closed set of transport variants of
    section 3, absent from [network.h]. *)
Inductive TransportKind : Type := TCP | UDP.

(** Modelled from the spec: the endpoint record of section 3, absent from
    [network.h]: transport kind, owned address text, port.  The address is a
    pointer to the endpoint's own buffer; the record itself is a value. *)
Record Endpoint : Type := {
  transportKind : TransportKind;
  address : ptr;
  endpoint_port : Z
}.

Definition kind_name (k : TransportKind) : string :=
  match k with TCP => "TCP" | UDP => "UDP" end.

Module Endpoint.

(** Modelled from the spec: [displayInfo() -> text] of section 4.1, absent
    from the source for any variant but TCP; it returns the one-line
    summary ["<Kind> Connection: <address>:<port>"] and changes nothing. *)
Definition displayInfo (e : Endpoint) : M string := λ st,
  match read_cstr (heap st) (address e) with
  | Some a =>
      Normal (kind_name (transportKind e) +:+ " Connection: " +:+ a
              +:+ ":" +:+ dec (endpoint_port e)) st
  | None => Undefined
  end.

(** An independent buffer holding the text at [p]. *)
Definition copy_text (p : ptr) : M ptr :=
  n ← strlen p;
  buf ← new_char_array (n + 1);
  strcpy buf p.

(** Modelled from the spec: [duplicate() -> new Endpoint] of section 4.1,
    absent from [network.h] and [network.cpp]: a new instance with
    identical field values that owns a buffer of its own, by the
    duplication logic of its variant. *)
Definition duplicate (e : Endpoint) : M Endpoint :=
  match transportKind e with
  | TCP =>
      buf ← copy_text (address e);
      mret {| transportKind := TCP; address := buf;
              endpoint_port := endpoint_port e |}
  | UDP =>
      buf ← copy_text (address e);
      mret {| transportKind := UDP; address := buf;
              endpoint_port := endpoint_port e |}
  end.

End Endpoint.

Module EndpointRegistry.

(** Modelled from the spec: the registry of sections 3 and 4.2, absent from
    the source: an ordered sequence of owned endpoints, in insertion
    order. *)
Definition t : Type := list Endpoint.


(** Modelled from the spec: [duplicate()] of section 4.2; element [i] of
    the result is [elements[i].duplicate()], first to last. *)
Fixpoint duplicate (r : t) : M t :=
  match r with
  | [] => mret []
  | e :: r' =>
      e' ← Endpoint.duplicate e;
      r'' ← duplicate r';
      mret (e' :: r'')
  end.


End EndpointRegistry.

(** A store for examples: the texts of two endpoints, one block each. *)
Definition two_texts : gmap positive (list cell) :=
  {[ 1%positive := cells_of_string "192.168.1.100";
     2%positive := cells_of_string "8.8.8.8" ]}.

Definition tcp_100 : Endpoint :=
  {| transportKind := TCP; address := Ptr 1 0; endpoint_port := 8080 |}.

Definition udp_dns : Endpoint :=
  {| transportKind := UDP; address := Ptr 2 0; endpoint_port := 53 |}.

(** ** Address validation (README, "IP Address Validation") *)

Definition is_digit (c : ascii) : bool :=
  (48 <=? nat_of_ascii c) && (nat_of_ascii c <=? 57).

Definition digit_value (c : ascii) : N := N.of_nat (nat_of_ascii c - 48).

(** The number a run of decimal digits denotes, most significant first. *)
Fixpoint numeral_from (acc : N) (s : string) : N :=
  match s with
  | "" => acc
  | String c s' => numeral_from (10 * acc + digit_value c) s'
  end.

Definition numeral_value (s : string) : N := numeral_from 0 s.

Fixpoint all_digits (s : string) : bool :=
  match s with
  | "" => true
  | String c s' => is_digit c && all_digits s'
  end.

(** The scanner of the C library behind [inet_pton(AF_INET, src, dst)]
    ([inet_pton4]).  [tmp] holds the octets a dot has closed, [tp] the octet
    being read.
[[
  saw_digit = 0; octets = 0; *(tp = tmp) = 0;
  while ((ch = *src++) != '\0') {
    if (ch >= '0' && ch <= '9') {
      u_int new = *tp * 10 + (ch - '0');
      if (saw_digit && *tp == 0) return 0;
      if (new > 255) return 0;
      *tp = new;
      if (!saw_digit) { if (++octets > 4) return 0; saw_digit = 1; }
    } else if (ch == '.' && saw_digit) {
      if (octets == 4) return 0;
      *++tp = 0; saw_digit = 0;
    } else
      return 0;
  }
  if (octets < 4) return 0;
  memcpy(dst, tmp, 4); return 1;
]] *)
Fixpoint inet_pton4 (src : string) (tmp : list N) (tp : N) (saw_digit : bool)
    (octets : nat) : option (list N) :=
  match src with
  | "" => if octets <? 4 then None else Some (tmp ++ [tp])
  | String ch src' =>
      if is_digit ch then
        let new := (tp * 10 + digit_value ch)%N in
        if saw_digit && (tp =? 0)%N then None
        else if (255 <? new)%N then None
        else if saw_digit then inet_pton4 src' tmp new true octets
        else if 4 <? S octets then None
        else inet_pton4 src' tmp new true (S octets)
      else if bool_decide (ch = "."%char) && saw_digit then
        if octets =? 4 then None
        else inet_pton4 src' (tmp ++ [tp]) 0%N false octets
      else None
  end.

(** [inet_pton(AF_INET, src, dst)]: the value returned, 1 or 0, and the four
    bytes written to [dst] when it is 1. *)
Definition inet_pton_AF_INET (src : string) : Z * option (list N) :=
  match inet_pton4 src [] 0%N false 0 with
  | Some addr => (1%Z, Some addr)
  | None => (0%Z, None)
  end.

(** [[
bool isValidIPv4(const char* ip) {
    struct sockaddr_in sa;
    return inet_pton(AF_INET, ip, &(sa.sin_addr)) != 0;
}
]]
    [ip] is given by the text of its C string. *)
Definition isValidIPv4 (ip : string) : bool :=
  negb (fst (inet_pton_AF_INET ip) =? 0)%Z.

(** The decimal string of an octet, and of the digit [d]. *)
Definition octet_text (n : N) : string := dec (Z.of_N n).

Definition digit_char (d : N) : ascii := ascii_of_nat (48 + N.to_nat d).

(** The octets of [tmp], each followed by a dot. *)
Fixpoint dotted (tmp : list N) : string :=
  match tmp with
  | [] => ""
  | t :: tmp' => octet_text t +:+ "." +:+ dotted tmp'
  end.

(** Four octets in [0, 255], each written as its decimal string (so without
    leading zeros), with a dot between neighbours and nothing else. *)
Definition canonical_quad (text : string) : Prop :=
  ∃ a b c d : N,
    (a ≤ 255 ∧ b ≤ 255 ∧ c ≤ 255 ∧ d ≤ 255)%N
    ∧ text = octet_text a +:+ "." +:+ octet_text b +:+ "."
             +:+ octet_text c +:+ "." +:+ octet_text d.

(** The specification's words, as a relation: four dot-separated decimal
    octets, each in [0, 255], and nothing else.  A decimal octet is a
    non-empty run of decimal digits that denotes a number of at most 255. *)
Definition decimal_octet (s : string) : Prop :=
  s ≠ "" ∧ all_digits s = true ∧ (numeral_value s ≤ 255)%N.

Definition dotted_quad (text : string) : Prop :=
  ∃ a b c d : string,
    text = a +:+ "." +:+ b +:+ "." +:+ c +:+ "." +:+ d
    ∧ decimal_octet a ∧ decimal_octet b ∧ decimal_octet c ∧ decimal_octet d.

(** [b] occurs in [a] as a contiguous run of characters. *)
Definition contains (a b : string) : Prop :=
  ∃ pre post : string, a = pre +:+ b +:+ post.

(** ** Destruction and the text of a line *)

(** [virtual ~NetworkConnection() {}] (network.h): the body is empty. *)
Definition NetworkConnection_dtor : M unit := mret tt.

(** [TCPConnection] declares no destructor.  The one the compiler supplies
    destroys the members, a [char*] and an [int], which releases nothing,
    and then runs the destructor of the base. *)
Definition TCPConnection_dtor (this : TCPConnection) : M unit :=
  NetworkConnection_dtor.

(** How often the character [c] occurs in [s]. *)
Fixpoint count_char (c : ascii) (s : string) : nat :=
  match s with
  | "" => 0
  | String x s' => (if decide (x = c) then 1 else 0) + count_char c s'
  end.

(** Unfold the monad's plumbing in the goal. *)
Ltac run := unfold mbind, M_bind, mret, M_ret; cbn.

(** * Properties *)

Example main_runs :
  main (mret tt) initial_state =
  Normal 0%Z
    (State (<[2%positive := cells_of_string "192.168.1.1"]> static_storage)
       (line "=== Network Monitor ===" +:+ line "TCP Connection: 192.168.1.1:8080"
        +:+ line "Program completed successfully!")).
Proof. vm_compute. reflexivity. Qed.

Example isValidIPv4_samples :
  isValidIPv4 "192.168.1.1" = true ∧ isValidIPv4 "256.1.1.1" = false
  ∧ isValidIPv4 "1.2.3" = false ∧ isValidIPv4 "1.2.3.4.5" = false
  ∧ isValidIPv4 "1.2.3.4 " = false ∧ isValidIPv4 "" = false
  ∧ isValidIPv4 "1..2.3" = false ∧ isValidIPv4 "0.0.0.0" = true
  ∧ isValidIPv4 "1.2.3.4." = false ∧ isValidIPv4 ".1.2.3.4" = false
  ∧ isValidIPv4 "01.2.3.4" = false ∧ isValidIPv4 "0001.2.3.4" = false
  ∧ inet_pton_AF_INET "192.168.1.1" = (1%Z, Some [192; 168; 1; 1]%N).
Proof. vm_compute. repeat split. Qed.

(** ** Text *)

Lemma append_cons (x : ascii) (a b : string) :
  String x a +:+ b = String x (a +:+ b).
Proof. reflexivity. Qed.

Lemma append_empty_l (a : string) : "" +:+ a = a.
Proof. reflexivity. Qed.

Lemma append_assoc (a b c : string) : (a +:+ b) +:+ c = a +:+ b +:+ c.
Proof.
  induction a as [|x a IH]; [done|]. by rewrite !append_cons, IH.
Qed.

Lemma append_empty_r (a : string) : a +:+ "" = a.
Proof.
  induction a as [|x a IH]; [done|]. by rewrite append_cons, IH.
Qed.

Lemma contains_middle (pre b post : string) : contains (pre +:+ b +:+ post) b.
Proof. by exists pre, post. Qed.

Lemma contains_append_l (a b c : string) : contains a c → contains (a +:+ b) c.
Proof.
  intros (pre & post & ->). exists pre, (post +:+ b).
  by rewrite !append_assoc.
Qed.

Lemma contains_append_r (a b c : string) : contains b c → contains (a +:+ b) c.
Proof.
  intros (pre & post & ->). exists (a +:+ pre), post.
  by rewrite !append_assoc.
Qed.

(** ** C strings in the store *)

Lemma length_cells_of_string (s : string) :
  length (cells_of_string s) = String.length s + 1.
Proof. induction s as [|c s IH]; simpl; [done | by rewrite IH]. Qed.

(** What [cstr_of_cells] reads is read again from its own cells, whatever
    follows them. *)
Lemma cstr_of_cells_copy (cs rest : list cell) (s : string) :
  cstr_of_cells cs = Some s →
  cstr_of_cells (cells_of_string s ++ rest) = Some s.
Proof.
  revert s. induction cs as [|[c|] cs IH]; intros s Hs; simpl in Hs; try done.
  destruct (decide (c = NUL)) as [->|Hc].
  - by injection Hs as <-.
  - destruct (cstr_of_cells cs) as [s'|] eqn:Hcs; simpl in Hs; [|done].
    injection Hs as <-. simpl.
    destruct (decide (c = NUL)); [done|]. by rewrite (IH s').
Qed.

Lemma read_cstr_block (h : gmap positive (list cell)) (b : positive) (s : string)
    (cs : list cell) :
  cstr_of_cells cs = Some s →
  h !! b = Some (cells_of_string s) →
  read_cstr h (Ptr b 0) = Some s.
Proof.
  intros Hs Hb. unfold read_cstr. simpl. rewrite Hb. simpl.
  rewrite <- (app_nil_r (cells_of_string s)). by eapply cstr_of_cells_copy.
Qed.

(** A pointer that reads as a C string points into a live block, and the
    text is read from the cells of that block. *)
Lemma read_cstr_live (h : gmap positive (list cell)) (p : ptr) (s : string) :
  read_cstr h p = Some s →
  ∃ cs, h !! blk p = Some cs ∧ cstr_of_cells (drop (off p) cs) = Some s.
Proof.
  unfold read_cstr. destruct (h !! blk p) as [cs|]; simpl; [|done].
  intros Hs. by exists cs.
Qed.

(** Reading a C string depends on the block of the pointer only. *)
Lemma read_cstr_agree (h h' : gmap positive (list cell)) (p : ptr) :
  h' !! blk p = h !! blk p → read_cstr h' p = read_cstr h p.
Proof. unfold read_cstr. by intros ->. Qed.

Lemma fresh_block_not_live (h : gmap positive (list cell)) (b : positive) :
  is_Some (h !! b) → fresh (dom h) ≠ b.
Proof.
  intros Hb Heq. apply elem_of_dom in Hb. rewrite <- Heq in Hb.
  by apply is_fresh in Hb.
Qed.

(** ** The copy the constructor makes *)

(** [new char[strlen(ip)+1]] followed by [strcpy]: the result is a block
    that was not live before, holding exactly the string and its
    terminator; nothing else changes. *)
Lemma alloc_copy (ip : ptr) (s : string) (st : state) :
  read_cstr (heap st) ip = Some s →
  (buf ← new_char_array (String.length s + 1); strcpy buf ip) st =
  Normal (Ptr (fresh (dom (heap st))) 0)
    (State (<[fresh (dom (heap st)) := cells_of_string s]> (heap st)) (cout st)).
Proof.
  intros Hs. destruct (read_cstr_live _ _ _ Hs) as (cs & Hcs & _).
  assert (Hne : fresh (dom (heap st)) ≠ blk ip)
    by (apply fresh_block_not_live; eauto).
  unfold new_char_array, strcpy. run.
  rewrite (read_cstr_agree (heap st)) by (by rewrite lookup_insert_ne).
  rewrite Hs. cbn.
  destruct (decide _) as [[? _]|_]; [done|].
  unfold store_cells. run. rewrite lookup_insert_eq.
  rewrite length_replicate, length_cells_of_string.
  destruct (decide _) as [_|Hlen]; [|lia]. cbn.
  rewrite insert_insert_eq.
  rewrite drop_ge by (rewrite length_replicate; lia).
  by rewrite app_nil_r.
Qed.

Lemma TCPConnection_ctor_spec (ip : ptr) (p : Z) (s : string) (st : state) :
  read_cstr (heap st) ip = Some s →
  TCPConnection_ctor ip p st =
  Normal {| ipAddress := Ptr (fresh (dom (heap st))) 0; port := p |}
    (State (<[fresh (dom (heap st)) := cells_of_string s]> (heap st)) (cout st)).
Proof.
  intros Hs. pose proof (alloc_copy ip s st Hs) as Hcopy.
  unfold mbind, M_bind, new_char_array in Hcopy. cbn in Hcopy.
  unfold TCPConnection_ctor, strlen, new_char_array. run.
  rewrite Hs. cbn. by rewrite Hcopy.
Qed.

Lemma TCPConnection_displayInfo_spec (c : TCPConnection) (s : string) (st : state) :
  read_cstr (heap st) (ipAddress c) = Some s →
  TCPConnection_displayInfo c st =
  Normal tt
    (State (heap st)
       (cout st +:+ line ("TCP Connection: " +:+ s +:+ ":" +:+ dec (port c)))).
Proof.
  intros Hs. unfold TCPConnection_displayInfo, mbind, M_bind, cout_cstr,
    cout_int, cout_endl, cout_put, line. cbn. rewrite Hs. cbn.
  by rewrite !append_assoc.
Qed.

(** [displayInfo] reads no block but the one its [ipAddress] points into. *)
Lemma TCPConnection_displayInfo_own_block (c : TCPConnection) (s : string)
    (h : gmap positive (list cell)) (out : string) :
  h !! blk (ipAddress c) = Some (cells_of_string s) →
  off (ipAddress c) = 0 →
  (∃ cs, cstr_of_cells cs = Some s) →
  TCPConnection_displayInfo c (State h out) =
  Normal tt
    (State h (out +:+ line ("TCP Connection: " +:+ s +:+ ":" +:+ dec (port c)))).
Proof.
  intros Hb Hoff [cs Hcs].
  apply (TCPConnection_displayInfo_spec c s (State h out)). cbn.
  destruct (ipAddress c) as [b o]. cbn in *. subst o.
  by eapply read_cstr_block.
Qed.

(** ** Construction *)

(** C3, as amended: the constructor checks neither the port range nor the
    address.  It raises no exception on any input, and for every
    NUL-terminated [ip], the empty string included, and every port, the
    values outside [0, 65535] included, it returns an object that holds the
    port as given and a copy of the text of [ip]. *)
Theorem TCPConnection_ctor_no_validation :
  (∀ ip p st e st', TCPConnection_ctor ip p st ≠ Raise e st')
  ∧ (∀ ip p s st,
       read_cstr (heap st) ip = Some s →
       ∃ c st', TCPConnection_ctor ip p st = Normal c st'
                ∧ port c = p
                ∧ read_cstr (heap st') (ipAddress c) = Some s).
Proof.
  split.
  - intros ip p st e st'. unfold TCPConnection_ctor, strlen. run.
    destruct (read_cstr (heap st) ip) as [s|] eqn:Hs; [|done]. cbn.
    pose proof (alloc_copy ip s st Hs) as Hcopy.
    unfold mbind, M_bind, new_char_array in Hcopy. cbn in Hcopy.
    unfold new_char_array. cbn. by rewrite Hcopy.
  - intros ip p s st Hs. eexists _, _.
    split; [by apply TCPConnection_ctor_spec|]. split; [done|]. cbn.
    destruct (read_cstr_live _ _ _ Hs) as (cs & _ & Hcs).
    eapply read_cstr_block; [done|]. by rewrite lookup_insert_eq.
Qed.

Lemma TCPConnection_ctor_no_validation_witness :
  read_cstr (heap initial_state) lit_ip = Some "192.168.1.1"
  ∧ ∃ c st', TCPConnection_ctor lit_ip 70000 initial_state = Normal c st'
             ∧ port c = 70000%Z
             ∧ read_cstr (heap st') (ipAddress c) = Some "192.168.1.1".
Proof.
  split; [reflexivity|].
  apply (proj2 TCPConnection_ctor_no_validation lit_ip 70000%Z "192.168.1.1"
           initial_state).
  reflexivity.
Defined.

(** C3, as stated, fails: port 70000 lies outside [0, 65535], yet the
    constructor returns an object with that port and raises nothing. *)
Lemma TCPConnection_ctor_port_70000 :
  ¬ (0 ≤ 70000 ≤ 65535)%Z
  ∧ TCPConnection_ctor lit_ip 70000 initial_state =
    Normal {| ipAddress := Ptr 2 0; port := 70000 |}
      (State (<[2%positive := cells_of_string "192.168.1.1"]> static_storage) "")
  ∧ ∀ st', TCPConnection_ctor lit_ip 70000 initial_state ≠ Raise InvalidArgument st'.
Proof.
  split; [lia|].
  assert (Hrun : TCPConnection_ctor lit_ip 70000 initial_state =
    Normal {| ipAddress := Ptr 2 0; port := 70000 |}
      (State (<[2%positive := cells_of_string "192.168.1.1"]> static_storage) ""))
    by (vm_compute; reflexivity).
  split; [exact Hrun|]. intros st'. by rewrite Hrun.
Qed.

(** C10: the constructor has no precondition on its values and signals no
    error: for every C string [ip], the empty one included, and every [int]
    port, negative or above 65535 included, construction returns an object,
    and [displayInfo] then prints that very address and port. *)
Theorem TCPConnection_ctor_total (ip : ptr) (s : string) (p : Z) (st : state) :
  read_cstr (heap st) ip = Some s →
  int_range p →
  ∃ c st',
    TCPConnection_ctor ip p st = Normal c st'
    ∧ TCPConnection_displayInfo c st' =
      Normal tt
        (State (heap st')
           (cout st' +:+ line ("TCP Connection: " +:+ s +:+ ":" +:+ dec p))).
Proof.
  intros Hs _.
  destruct (proj2 TCPConnection_ctor_no_validation ip p s st Hs)
    as (c & st' & Hc & Hp & Hread).
  exists c, st'. split; [done|]. rewrite <- Hp.
  by apply TCPConnection_displayInfo_spec.
Qed.

(** The empty address and a port above 65535, in a store that holds the
    empty string. *)
Lemma TCPConnection_ctor_total_witness :
  let st := State {[ 1%positive := cells_of_string "" ]} "" in
  read_cstr (heap st) (Ptr 1 0) = Some ""
  ∧ int_range 70000
  ∧ ∃ c st',
      TCPConnection_ctor (Ptr 1 0) 70000 st = Normal c st'
      ∧ TCPConnection_displayInfo c st' =
        Normal tt
          (State (heap st')
             (cout st' +:+ line ("TCP Connection: " +:+ "" +:+ ":" +:+ dec 70000))).
Proof.
  cbv zeta. split; [reflexivity|]. split; [unfold int_range; lia|].
  apply (TCPConnection_ctor_total (Ptr 1 0) "" 70000%Z); [reflexivity|].
  unfold int_range; lia.
Defined.

(** C9: the constructor copies [ip] into storage of its own.  The buffer is
    a block that was not live before the call, of [strlen(ip)+1] cells: the
    characters of [ip] as they were at construction and the terminator.  The
    caller's block is another one, and whatever is written into it
    afterwards, [displayInfo] prints the address as constructed. *)
Theorem TCPConnection_ctor_owns_copy (ip : ptr) (p : Z) (s : string) (st : state) :
  read_cstr (heap st) ip = Some s →
  ∃ b st',
    TCPConnection_ctor ip p st = Normal {| ipAddress := Ptr b 0; port := p |} st'
    ∧ strlen ip st = Normal (String.length s) st
    ∧ heap st !! b = None
    ∧ b ≠ blk ip
    ∧ heap st' = <[b := cells_of_string s]> (heap st)
    ∧ length (cells_of_string s) = String.length s + 1
    ∧ read_cstr (heap st') (Ptr b 0) = Some s
    ∧ ∀ (cs' : list cell) (out : string),
        TCPConnection_displayInfo {| ipAddress := Ptr b 0; port := p |}
          (State (<[blk ip := cs']> (heap st')) out) =
        Normal tt
          (State (<[blk ip := cs']> (heap st'))
             (out +:+ line ("TCP Connection: " +:+ s +:+ ":" +:+ dec p))).
Proof.
  intros Hs. destruct (read_cstr_live _ _ _ Hs) as (cs & Hlive & Hcs).
  set (b := fresh (dom (heap st))).
  assert (Hne : b ≠ blk ip) by (apply fresh_block_not_live; eauto).
  exists b, (State (<[b := cells_of_string s]> (heap st)) (cout st)).
  split; [by apply TCPConnection_ctor_spec|].
  split; [unfold strlen; by rewrite Hs|].
  split; [apply not_elem_of_dom, is_fresh|].
  split; [done|]. split; [done|].
  split; [apply length_cells_of_string|].
  split.
  { cbn. eapply read_cstr_block; [done|]. by rewrite lookup_insert_eq. }
  intros cs' out.
  apply (TCPConnection_displayInfo_own_block
           {| ipAddress := Ptr b 0; port := p |} s); cbn; [|done|eauto].
  rewrite lookup_insert_ne by done. by rewrite lookup_insert_eq.
Qed.

Lemma TCPConnection_ctor_owns_copy_witness :
  read_cstr (heap initial_state) lit_ip = Some "192.168.1.1"
  ∧ ∃ b st',
      TCPConnection_ctor lit_ip 8080 initial_state =
        Normal {| ipAddress := Ptr b 0; port := 8080 |} st'
      ∧ strlen lit_ip initial_state =
        Normal (String.length "192.168.1.1") initial_state
      ∧ heap initial_state !! b = None
      ∧ b ≠ blk lit_ip
      ∧ heap st' = <[b := cells_of_string "192.168.1.1"]> (heap initial_state)
      ∧ length (cells_of_string "192.168.1.1") = String.length "192.168.1.1" + 1
      ∧ read_cstr (heap st') (Ptr b 0) = Some "192.168.1.1"
      ∧ ∀ (cs' : list cell) (out : string),
          TCPConnection_displayInfo {| ipAddress := Ptr b 0; port := 8080 |}
            (State (<[blk lit_ip := cs']> (heap st')) out) =
          Normal tt
            (State (<[blk lit_ip := cs']> (heap st'))
               (out +:+ line ("TCP Connection: " +:+ "192.168.1.1" +:+ ":"
                              +:+ dec 8080))).
Proof.
  split; [reflexivity|].
  apply (TCPConnection_ctor_owns_copy lit_ip 8080%Z "192.168.1.1" initial_state).
  reflexivity.
Defined.

(** ** Display *)

(** C4: an endpoint constructed from ["192.168.1.1"] and 8080 displays as
    exactly the line ["TCP Connection: 192.168.1.1:8080"], which is the
    format ["<Kind> Connection: <address>:<port>"] at kind TCP. *)
Theorem TCPConnection_display_192_168_1_1 (ip : ptr) (st : state) :
  read_cstr (heap st) ip = Some "192.168.1.1" →
  ∃ h',
    (conn ← TCPConnection_ctor ip 8080; TCPConnection_displayInfo conn) st =
    Normal tt (State h' (cout st +:+ line "TCP Connection: 192.168.1.1:8080"))
    ∧ "TCP Connection: 192.168.1.1:8080" =
      kind_name TCP +:+ " Connection: " +:+ "192.168.1.1" +:+ ":" +:+ dec 8080.
Proof.
  intros Hs.
  destruct (TCPConnection_ctor_total ip "192.168.1.1" 8080%Z st Hs)
    as (c & st' & Hc & Hd); [unfold int_range; lia|].
  exists (heap st'). split; [|reflexivity].
  unfold mbind, M_bind. rewrite Hc, Hd.
  rewrite (TCPConnection_ctor_spec _ _ _ _ Hs) in Hc.
  by injection Hc as _ <-.
Qed.

Lemma TCPConnection_display_192_168_1_1_witness :
  read_cstr (heap initial_state) lit_ip = Some "192.168.1.1"
  ∧ ∃ h',
      (conn ← TCPConnection_ctor lit_ip 8080; TCPConnection_displayInfo conn)
        initial_state =
      Normal tt
        (State h' (cout initial_state +:+ line "TCP Connection: 192.168.1.1:8080"))
      ∧ "TCP Connection: 192.168.1.1:8080" =
        kind_name TCP +:+ " Connection: " +:+ "192.168.1.1" +:+ ":" +:+ dec 8080.
Proof.
  split; [reflexivity|].
  apply (TCPConnection_display_192_168_1_1 lit_ip initial_state). reflexivity.
Defined.

(** C5: for a non-empty address and a port in [0, 65535], what
    [displayInfo] prints for the endpoint constructed from them contains the
    address and the decimal string of the port. *)
Theorem TCPConnection_display_contains (ip : ptr) (s : string) (p : Z) (st : state) :
  read_cstr (heap st) ip = Some s →
  s ≠ "" →
  (0 ≤ p ≤ 65535)%Z →
  ∃ out h',
    (conn ← TCPConnection_ctor ip p; TCPConnection_displayInfo conn) st =
    Normal tt (State h' (cout st +:+ out))
    ∧ contains out s ∧ contains out (dec p).
Proof.
  intros Hs _ Hp.
  destruct (TCPConnection_ctor_total ip s p st Hs)
    as (c & st' & Hc & Hd); [unfold int_range; lia|].
  exists (line ("TCP Connection: " +:+ s +:+ ":" +:+ dec p)), (heap st').
  split.
  - unfold mbind, M_bind. rewrite Hc, Hd.
    rewrite (TCPConnection_ctor_spec _ _ _ _ Hs) in Hc.
    by injection Hc as _ <-.
  - unfold line. split; apply contains_append_l.
    + apply contains_middle.
    + do 3 apply contains_append_r.
      exists "", "". by rewrite append_empty_r.
Qed.

Lemma TCPConnection_display_contains_witness :
  read_cstr (heap initial_state) lit_ip = Some "192.168.1.1"
  ∧ "192.168.1.1" ≠ ""
  ∧ (0 ≤ 8080 ≤ 65535)%Z
  ∧ ∃ out h',
      (conn ← TCPConnection_ctor lit_ip 8080; TCPConnection_displayInfo conn)
        initial_state =
      Normal tt (State h' (cout initial_state +:+ out))
      ∧ contains out "192.168.1.1" ∧ contains out (dec 8080).
Proof.
  split; [reflexivity|]. split; [discriminate|]. split; [lia|].
  apply (TCPConnection_display_contains lit_ip "192.168.1.1" 8080%Z initial_state);
    [reflexivity | discriminate | lia].
Defined.

(** C8: [displayInfo] is a query.  On an endpoint whose address is the C
    string [s] it returns, leaves every block of the store as it was, the
    address buffer included, and its one effect is the summary line appended
    to the output; whatever the outcome, a run that ends does not change the
    store. *)
Theorem TCPConnection_displayInfo_pure (c : TCPConnection) (st : state) :
  (∀ s, read_cstr (heap st) (ipAddress c) = Some s →
     ∃ st', TCPConnection_displayInfo c st = Normal tt st'
            ∧ heap st' = heap st
            ∧ read_cstr (heap st') (ipAddress c) = Some s
            ∧ cout st' = cout st +:+ line ("TCP Connection: " +:+ s +:+ ":"
                                           +:+ dec (port c)))
  ∧ (∀ r st', TCPConnection_displayInfo c st = Normal r st' → heap st' = heap st)
  ∧ (∀ e st', TCPConnection_displayInfo c st ≠ Raise e st').
Proof.
  split; [|split].
  - intros s Hs. eexists. split; [by apply TCPConnection_displayInfo_spec|].
    by cbn.
  - intros r st'. unfold TCPConnection_displayInfo, cout_cstr, cout_int,
      cout_endl, cout_put. run.
    destruct (read_cstr (heap st) (ipAddress c)); cbn; [|done].
    by intros [= _ <-].
  - intros e st'. unfold TCPConnection_displayInfo, cout_cstr, cout_int,
      cout_endl, cout_put. run.
    by destruct (read_cstr (heap st) (ipAddress c)).
Qed.

Lemma TCPConnection_displayInfo_pure_witness :
  let c := {| ipAddress := lit_ip; port := 8080 |} in
  read_cstr (heap initial_state) (ipAddress c) = Some "192.168.1.1"
  ∧ ∃ st', TCPConnection_displayInfo c initial_state = Normal tt st'
           ∧ heap st' = heap initial_state
           ∧ read_cstr (heap st') (ipAddress c) = Some "192.168.1.1"
           ∧ cout st' = cout initial_state
                        +:+ line ("TCP Connection: " +:+ "192.168.1.1" +:+ ":"
                                  +:+ dec (port c)).
Proof.
  cbv zeta. split; [reflexivity|].
  apply (proj1 (TCPConnection_displayInfo_pure
                  {| ipAddress := lit_ip; port := 8080 |} initial_state)).
  reflexivity.
Defined.

(** ** The program *)

Section MainRun.

Variable printSystemInfo : M unit.

(** A normal run of [printSystemInfo]: the call returns, what it has
    written follows what was written before, and the string literal of
    [main] is still in place. *)
Hypothesis printSystemInfo_returns : ∀ st,
  ∃ out h',
    printSystemInfo st = Normal tt (State h' (cout st +:+ out))
    ∧ (read_cstr (heap st) lit_ip = Some "192.168.1.1" →
       read_cstr h' lit_ip = Some "192.168.1.1").

(** C7: on a normal run [main] returns 0, and its output starts with the
    banner line; the line of the endpoint comes after it. *)
Theorem main_banner_then_exit_0 (st0 : state) :
  read_cstr (heap st0) lit_ip = Some "192.168.1.1" →
  ∃ sysinfo h',
    main printSystemInfo st0 =
    Normal 0%Z
      (State h'
         (cout st0 +:+ line "=== Network Monitor ===" +:+ sysinfo
          +:+ line "TCP Connection: 192.168.1.1:8080"
          +:+ line "Program completed successfully!")).
Proof.
  intros Hlit. unfold main. unfold cout_endl, cout_put at 1. run.
  destruct (printSystemInfo_returns
              (State (heap st0) ((cout st0 +:+ "=== Network Monitor ===")
                                 +:+ newline)))
    as (sysinfo & h1 & Hsys & Hkeep).
  rewrite Hsys. cbn in Hkeep. specialize (Hkeep Hlit).
  match goal with |- context [TCPConnection_ctor lit_ip 8080 ?st] =>
    destruct (TCPConnection_display_192_168_1_1 lit_ip st Hkeep)
      as (h2 & Hdisp & _)
  end.
  unfold mbind, M_bind in Hdisp. cbn in Hdisp.
  destruct (TCPConnection_ctor lit_ip 8080 _) as [conn st2| |]; try done.
  rewrite Hdisp. unfold cout_put. cbn.
  exists sysinfo, h2. unfold line. by rewrite !append_assoc.
Qed.

End MainRun.

(** A [printSystemInfo] that prints one line. *)
Lemma main_banner_then_exit_0_witness :
  let printSystemInfo := cout_put "System: network_monitor" ;; cout_endl in
  (∀ st, ∃ out h',
     printSystemInfo st = Normal tt (State h' (cout st +:+ out))
     ∧ (read_cstr (heap st) lit_ip = Some "192.168.1.1" →
        read_cstr h' lit_ip = Some "192.168.1.1"))
  ∧ read_cstr (heap initial_state) lit_ip = Some "192.168.1.1"
  ∧ ∃ sysinfo h',
      main printSystemInfo initial_state =
      Normal 0%Z
        (State h'
           (cout initial_state +:+ line "=== Network Monitor ===" +:+ sysinfo
            +:+ line "TCP Connection: 192.168.1.1:8080"
            +:+ line "Program completed successfully!")).
Proof.
  cbv zeta.
  assert (Hsys : ∀ st, ∃ out h',
     (cout_put "System: network_monitor" ;; cout_endl) st =
       Normal tt (State h' (cout st +:+ out))
     ∧ (read_cstr (heap st) lit_ip = Some "192.168.1.1" →
        read_cstr h' lit_ip = Some "192.168.1.1")).
  { intros st. exists (line "System: network_monitor"), (heap st).
    split; [|done]. unfold cout_endl, cout_put, line. run.
    by rewrite append_assoc. }
  split; [exact Hsys|]. split; [reflexivity|].
  apply (main_banner_then_exit_0 _ Hsys initial_state). reflexivity.
Defined.

(** The compiler-supplied copy of a [TCPConnection] allocates nothing and
    names the buffer of the original. *)
Remark TCPConnection_copy_shares_buffer (c : TCPConnection) (st : state) :
  ∃ c', TCPConnection_copy c st = Normal c' st ∧ ipAddress c' = ipAddress c.
Proof. exists c. by destruct c. Qed.

(** ** Duplication of an endpoint *)

Lemma Endpoint_copy_text_spec (p : ptr) (s : string) (st : state) :
  read_cstr (heap st) p = Some s →
  Endpoint.copy_text p st =
  Normal (Ptr (fresh (dom (heap st))) 0)
    (State (<[fresh (dom (heap st)) := cells_of_string s]> (heap st)) (cout st)).
Proof.
  intros Hs. pose proof (alloc_copy p s st Hs) as Hcopy.
  unfold Endpoint.copy_text, strlen. unfold mbind at 1. unfold M_bind at 1.
  by rewrite Hs.
Qed.

Lemma Endpoint_duplicate_spec (e : Endpoint) (s : string) (st : state) :
  read_cstr (heap st) (address e) = Some s →
  Endpoint.duplicate e st =
  Normal {| transportKind := transportKind e;
            address := Ptr (fresh (dom (heap st))) 0;
            endpoint_port := endpoint_port e |}
    (State (<[fresh (dom (heap st)) := cells_of_string s]> (heap st)) (cout st)).
Proof.
  intros Hs. unfold Endpoint.duplicate.
  destruct (transportKind e); unfold mbind, M_bind;
    by rewrite (Endpoint_copy_text_spec _ _ _ Hs).
Qed.

Lemma Endpoint_displayInfo_spec (e : Endpoint) (s : string) (st : state) :
  read_cstr (heap st) (address e) = Some s →
  Endpoint.displayInfo e st =
  Normal (kind_name (transportKind e) +:+ " Connection: " +:+ s +:+ ":"
          +:+ dec (endpoint_port e)) st.
Proof. intros Hs. unfold Endpoint.displayInfo. by rewrite Hs. Qed.

(** The endpoint of the specification at kind TCP is the [TCPConnection] of
    the code: what [TCPConnection::displayInfo] prints is the text of
    [displayInfo() -> text], as one line. *)
Lemma Endpoint_displayInfo_TCP (e : Endpoint) (txt : string) (st : state) :
  transportKind e = TCP →
  Endpoint.displayInfo e st = Normal txt st →
  TCPConnection_displayInfo
    {| ipAddress := address e; port := endpoint_port e |} st =
  Normal tt (State (heap st) (cout st +:+ line txt)).
Proof.
  intros Hk. unfold Endpoint.displayInfo. rewrite Hk.
  destruct (read_cstr (heap st) (address e)) as [s|] eqn:Hs; [|done].
  intros [= <-].
  by apply (TCPConnection_displayInfo_spec (Build_TCPConnection _ _)).
Qed.

(** C2: [duplicate] returns a new endpoint with the field values of the
    original and a buffer of its own.  The buffer is a block that was not
    live before, so it is not the original's; the original's storage is left
    as it was; both display the same text; and overwriting the storage of
    either afterwards leaves the text of the other unchanged. *)
Theorem Endpoint_duplicate_independent (e : Endpoint) (s : string) (st : state) :
  read_cstr (heap st) (address e) = Some s →
  ∃ e' st' txt,
    Endpoint.duplicate e st = Normal e' st'
    ∧ transportKind e' = transportKind e
    ∧ endpoint_port e' = endpoint_port e
    ∧ heap st !! blk (address e') = None
    ∧ blk (address e') ≠ blk (address e)
    ∧ (∀ b, b ≠ blk (address e') → heap st' !! b = heap st !! b)
    ∧ Endpoint.displayInfo e st' = Normal txt st'
    ∧ Endpoint.displayInfo e' st' = Normal txt st'
    ∧ (∀ cs out,
         Endpoint.displayInfo e' (State (<[blk (address e) := cs]> (heap st')) out)
         = Normal txt (State (<[blk (address e) := cs]> (heap st')) out))
    ∧ (∀ cs out,
         Endpoint.displayInfo e (State (<[blk (address e') := cs]> (heap st')) out)
         = Normal txt (State (<[blk (address e') := cs]> (heap st')) out)).
Proof.
  intros Hs. destruct (read_cstr_live _ _ _ Hs) as (cs0 & Hlive & Hcs0).
  set (b := fresh (dom (heap st))).
  assert (Hne : b ≠ blk (address e)) by (apply fresh_block_not_live; eauto).
  assert (Hnew : ∀ h, h !! b = Some (cells_of_string s) →
                      read_cstr h (Ptr b 0) = Some s)
    by (intros h Hh; by eapply read_cstr_block).
  eexists _, _, _. split; [by apply Endpoint_duplicate_spec|]. cbn. fold b.
  split; [done|]. split; [done|].
  split; [apply not_elem_of_dom, is_fresh|]. split; [done|].
  split; [by intros b' Hb'; rewrite lookup_insert_ne|].
  split.
  { apply Endpoint_displayInfo_spec. cbn.
    rewrite (read_cstr_agree (heap st)); [done|]. by rewrite lookup_insert_ne. }
  split.
  { apply (Endpoint_displayInfo_spec (Build_Endpoint _ _ _)). cbn.
    apply Hnew. by rewrite lookup_insert_eq. }
  split.
  - intros cs out. apply (Endpoint_displayInfo_spec (Build_Endpoint _ _ _)). cbn.
    apply Hnew. rewrite lookup_insert_ne by done. by rewrite lookup_insert_eq.
  - intros cs out. apply Endpoint_displayInfo_spec. cbn.
    rewrite (read_cstr_agree (heap st)); [done|].
    by rewrite !lookup_insert_ne.
Qed.

Lemma Endpoint_duplicate_independent_witness :
  let e := udp_dns in
  let st := State two_texts "" in
  read_cstr (heap st) (address e) = Some "8.8.8.8"
  ∧ ∃ e' st' txt,
      Endpoint.duplicate e st = Normal e' st'
      ∧ transportKind e' = transportKind e
      ∧ endpoint_port e' = endpoint_port e
      ∧ heap st !! blk (address e') = None
      ∧ blk (address e') ≠ blk (address e)
      ∧ (∀ b, b ≠ blk (address e') → heap st' !! b = heap st !! b)
      ∧ Endpoint.displayInfo e st' = Normal txt st'
      ∧ Endpoint.displayInfo e' st' = Normal txt st'
      ∧ (∀ cs out,
           Endpoint.displayInfo e' (State (<[blk (address e) := cs]> (heap st')) out)
           = Normal txt (State (<[blk (address e) := cs]> (heap st')) out))
      ∧ (∀ cs out,
           Endpoint.displayInfo e (State (<[blk (address e') := cs]> (heap st')) out)
           = Normal txt (State (<[blk (address e') := cs]> (heap st')) out)).
Proof.
  cbv zeta. split; [reflexivity|].
  apply (Endpoint_duplicate_independent udp_dns "8.8.8.8" (State two_texts "")).
  reflexivity.
Defined.

(** ** Duplication of a registry *)






Example EndpointRegistry_duplicate_runs :
  EndpointRegistry.duplicate [tcp_100; udp_dns] (State two_texts "") =
  Normal
    [ {| transportKind := TCP; address := Ptr 3 0; endpoint_port := 8080 |};
      {| transportKind := UDP; address := Ptr 4 0; endpoint_port := 53 |} ]
    (State (<[4%positive := cells_of_string "8.8.8.8"]>
              (<[3%positive := cells_of_string "192.168.1.100"]> two_texts)) "").
Proof. vm_compute. reflexivity. Qed.

(** ** Address validation *)

(** A property of the numbers below a bound, checked by running it. *)
Lemma N_forall_below (P : N → bool) (b : nat) :
  forallb (λ i, P (N.of_nat i)) (seq 0 b) = true →
  ∀ n, (n < N.of_nat b)%N → P n = true.
Proof.
  intros H n Hn. rewrite List.forallb_forall in H.
  rewrite <- (N2Nat.id n). apply H. apply in_seq. lia.
Qed.

(** *** Digits and the decimal string of an octet *)

Lemma digit_char_value (ch : ascii) :
  is_digit ch = true →
  digit_char (digit_value ch) = ch ∧ (digit_value ch < 10)%N.
Proof.
  unfold is_digit, digit_char, digit_value.
  intros [Hlo Hhi]%andb_prop. apply Nat.leb_le in Hlo, Hhi.
  rewrite Nat2N.id. split; [|lia].
  replace (48 + (nat_of_ascii ch - 48)) with (nat_of_ascii ch) by lia.
  apply ascii_nat_embedding.
Qed.

Lemma digit_value_char (d : N) :
  (d < 10)%N → is_digit (digit_char d) = true ∧ digit_value (digit_char d) = d.
Proof.
  intros Hd.
  assert (H : is_digit (digit_char d)
              && (digit_value (digit_char d) =? d)%N = true).
  { revert d Hd.
    apply (N_forall_below
             (λ d, is_digit (digit_char d) && (digit_value (digit_char d) =? d)%N) 10).
    by vm_compute. }
  apply andb_prop in H as [? ?%N.eqb_eq]. done.
Qed.

Lemma octet_text_digit (d : N) :
  (d < 10)%N → octet_text d = String (digit_char d) "".
Proof.
  intros Hd. apply String.eqb_eq. revert d Hd.
  apply (N_forall_below
           (λ d, (octet_text d =? String (digit_char d) "")%string) 10).
  by vm_compute.
Qed.

(** The decimal string of [10 * tp + d] is that of [tp] followed by the
    digit [d], when [tp] is not zero. *)
Lemma octet_text_snoc (tp d : N) :
  (1 ≤ tp)%N → (d < 10)%N → (tp * 10 + d ≤ 255)%N →
  octet_text (tp * 10 + d) = octet_text tp +:+ String (digit_char d) "".
Proof.
  intros Htp Hd Hn.
  assert (H : ∀ n, (n < N.of_nat 256)%N →
    (if (10 <=? n)%N
     then (octet_text n =?
           octet_text (n / 10) +:+ String (digit_char (n mod 10)) "")%string
     else true) = true).
  { apply (N_forall_below (λ n,
      if (10 <=? n)%N
      then (octet_text n =?
            octet_text (n / 10) +:+ String (digit_char (n mod 10)) "")%string
      else true) 256).
    by vm_compute. }
  specialize (H (tp * 10 + d)%N ltac:(lia)).
  destruct (N.leb_spec 10 (tp * 10 + d)) as [_|?]; [|lia].
  apply String.eqb_eq in H.
  rewrite <- (N.div_unique (tp * 10 + d) 10 tp d) in H by lia.
  rewrite <- (N.mod_unique (tp * 10 + d) 10 tp d) in H by lia.
  done.
Qed.

(** A decimal string of an octet is a decimal octet in the sense of the
    specification. *)
Lemma decimal_octet_octet_text (n : N) :
  (n ≤ 255)%N → decimal_octet (octet_text n).
Proof.
  intros Hn.
  assert (H : negb (octet_text n =? "")%string && all_digits (octet_text n)
              && (numeral_value (octet_text n) <=? 255)%N = true).
  { revert n Hn.
    assert (H : ∀ n, (n < N.of_nat 256)%N →
      negb (octet_text n =? "")%string && all_digits (octet_text n)
      && (numeral_value (octet_text n) <=? 255)%N = true).
    { apply (N_forall_below (λ n,
        negb (octet_text n =? "")%string && all_digits (octet_text n)
        && (numeral_value (octet_text n) <=? 255)%N) 256).
      by vm_compute. }
    intros n Hn. apply H. lia. }
  apply andb_prop in H as [[Hne Hdig]%andb_prop Hval].
  split; [|split]; [|done|by apply N.leb_le].
  intros Heq. rewrite Heq in Hne. done.
Qed.

(** *** The scanner, one step at a time *)

Lemma dotted_snoc (tmp : list N) (tp : N) :
  dotted (tmp ++ [tp]) = dotted tmp +:+ octet_text tp +:+ ".".
Proof.
  induction tmp as [|t tmp IH]; cbn [dotted app].
  - by rewrite append_empty_l, append_empty_r.
  - by rewrite IH, !append_assoc.
Qed.

(** The first digit of an octet. *)
Lemma inet_pton4_first_digit (d : N) (rest : string) (tmp : list N) (k : nat) :
  (d < 10)%N → k < 4 →
  inet_pton4 (String (digit_char d) rest) tmp 0 false k =
  inet_pton4 rest tmp d true (S k).
Proof.
  intros Hd Hk. destruct (digit_value_char d Hd) as [Hdig Hval].
  cbn [inet_pton4]. rewrite Hdig, Hval. cbn [andb].
  rewrite N.mul_0_l, N.add_0_l.
  destruct (N.ltb_spec 255 d) as [?|_]; [lia|].
  destruct (Nat.ltb_spec 4 (S k)) as [?|_]; [lia|done].
Qed.

(** A further digit of an octet that has not started with zero. *)
Lemma inet_pton4_next_digit (tp d : N) (rest : string) (tmp : list N) (k : nat) :
  (1 ≤ tp)%N → (d < 10)%N → (tp * 10 + d ≤ 255)%N →
  inet_pton4 (String (digit_char d) rest) tmp tp true k =
  inet_pton4 rest tmp (tp * 10 + d) true k.
Proof.
  intros Htp Hd Hn. destruct (digit_value_char d Hd) as [Hdig Hval].
  cbn [inet_pton4]. rewrite Hdig, Hval. cbn [andb].
  destruct (N.eqb_spec tp 0) as [?|_]; [lia|].
  destruct (N.ltb_spec 255 (tp * 10 + d)) as [?|_]; [lia|done].
Qed.

(** A dot after an octet, when fewer than four have been read. *)
Lemma inet_pton4_dot (tp : N) (rest : string) (tmp : list N) (k : nat) :
  k ≠ 4 →
  inet_pton4 ("." +:+ rest) tmp tp true k =
  inet_pton4 rest (tmp ++ [tp]) 0 false k.
Proof.
  intros Hk. change ("." +:+ rest) with (String "."%char rest).
  cbn [inet_pton4]. change (is_digit ".") with false. cbn.
  destruct (Nat.eqb_spec k 4) as [?|_]; done.
Qed.

(** The scanner reads the decimal string of an octet as that octet. *)
Lemma inet_pton4_octet (n : N) (rest : string) (tmp : list N) (k : nat) :
  (n ≤ 255)%N → k < 4 →
  inet_pton4 (octet_text n +:+ rest) tmp 0 false k =
  inet_pton4 rest tmp n true (S k).
Proof.
  intros Hn Hk. revert rest Hn.
  induction (N.lt_wf_0 n) as [n _ IH]. intros rest Hn.
  destruct (N.lt_ge_cases n 10) as [Hsmall|Hbig].
  - rewrite octet_text_digit by done. rewrite append_cons, append_empty_l.
    by apply inet_pton4_first_digit.
  - pose proof (N.div_mod n 10 ltac:(lia)) as Hdm.
    pose proof (N.mod_lt n 10 ltac:(lia)) as Hr.
    set (q := (n / 10)%N) in *. set (r := (n mod 10)%N) in *.
    assert (Hq : (n = q * 10 + r)%N) by lia.
    rewrite Hq at 1. rewrite octet_text_snoc by lia.
    rewrite append_assoc, append_cons, append_empty_l.
    rewrite IH by lia. rewrite inet_pton4_next_digit by lia. by rewrite <- Hq.
Qed.

(** What the scanner accepts is what it has read: the octets it closed and
    the one it was reading, as decimal strings with dots between. *)
Lemma inet_pton4_sound (src : string) :
  ∀ (tmp : list N) (tp : N) (saw : bool) (k : nat) (bytes : list N),
    k = length tmp + (if saw then 1 else 0) →
    k ≤ 4 →
    (saw = false → tp = 0%N ∧ k < 4) →
    (tp ≤ 255)%N →
    Forall (λ t, (t ≤ 255)%N) tmp →
    inet_pton4 src tmp tp saw k = Some bytes →
    ∃ tmp' tp',
      bytes = tmp' ++ [tp'] ∧ length tmp' = 3
      ∧ Forall (λ t, (t ≤ 255)%N) bytes
      ∧ dotted tmp +:+ (if saw then octet_text tp else "") +:+ src =
        dotted tmp' +:+ octet_text tp'.
Proof.
  induction src as [|ch src IH]; intros tmp tp saw k bytes Hk Hk4 Hsaw Htp Htmp.
  - cbn [inet_pton4]. destruct (Nat.ltb_spec k 4) as [?|Hge]; [done|].
    intros [= <-]. destruct saw; [|destruct Hsaw; [done|lia]].
    exists tmp, tp. rewrite append_empty_r.
    repeat split; [lia|]. apply Forall_app. split; [done|]. by constructor.
  - cbn [inet_pton4]. destruct (is_digit ch) eqn:Hdig.
    + destruct (digit_char_value ch Hdig) as [Hch Hd].
      destruct (saw && (tp =? 0)%N) eqn:Hzero; [done|].
      destruct (N.ltb_spec 255 (tp * 10 + digit_value ch)) as [?|Hnew]; [done|].
      destruct saw.
      * cbn in Hzero. apply N.eqb_neq in Hzero.
        intros Hrun.
        destruct (IH tmp (tp * 10 + digit_value ch)%N true k bytes Hk Hk4
                    ltac:(done) Hnew Htmp Hrun)
          as (tmp' & tp' & ? & ? & ? & Htext).
        exists tmp', tp'. repeat split; try done. rewrite <- Htext.
        rewrite octet_text_snoc by lia. rewrite Hch.
        by rewrite !append_assoc.
      * destruct Hsaw as [-> Hlt]; [done|].
        destruct (Nat.ltb_spec 4 (S k)) as [?|_]; [done|].
        intros Hrun. rewrite N.mul_0_l, N.add_0_l in Hrun, Hnew.
        destruct (IH tmp (digit_value ch) true (S k) bytes)
          as (tmp' & tp' & ? & ? & ? & Htext);
          [cbn; lia | lia | done | done | done | done |].
        exists tmp', tp'. repeat split; try done. rewrite <- Htext.
        rewrite octet_text_digit by done. rewrite Hch.
        by rewrite !append_empty_l.
    + destruct (bool_decide (ch = "."%char) && saw) eqn:Hdot; [|done].
      apply andb_prop in Hdot as [->%bool_decide_eq_true ->].
      destruct (Nat.eqb_spec k 4) as [?|Hne]; [done|].
      intros Hrun.
      destruct (IH (tmp ++ [tp]) 0%N false k bytes) as (tmp' & tp' & ? & ? & ? & Htext);
        try done.
      { rewrite length_app. cbn. lia. }
      { intros _. split; [done|lia]. }
      { apply Forall_app. split; [done|]. by constructor. }
      exists tmp', tp'. repeat split; try done. rewrite <- Htext.
      rewrite dotted_snoc, append_empty_l. by rewrite !append_assoc.
Qed.

(** C6, as amended: [isValidIPv4] holds of a text exactly when the text is
    four octets in [0, 255], each written as its decimal string, without
    leading zeros, with a dot between neighbours and nothing before, after
    or between.  Every text it accepts is four dot-separated decimal octets
    in the sense of the specification.  It is true of ["192.168.1.1"], false
    of ["256.1.1.1"], of ["1.2.3"] and of ["01.2.3.4"]; on a text that is not
    of this form its answer is [false], a value and not an error. *)
Theorem isValidIPv4_canonical_quad :
  (∀ text, isValidIPv4 text = true ↔ canonical_quad text)
  ∧ (∀ text, isValidIPv4 text = false ↔ ¬ canonical_quad text)
  ∧ (∀ text, isValidIPv4 text = true → dotted_quad text)
  ∧ isValidIPv4 "192.168.1.1" = true
  ∧ isValidIPv4 "256.1.1.1" = false
  ∧ isValidIPv4 "1.2.3" = false
  ∧ isValidIPv4 "01.2.3.4" = false.
Proof.
  assert (Hiff : ∀ text, isValidIPv4 text = true ↔ canonical_quad text).
  { intros text. unfold isValidIPv4, inet_pton_AF_INET, canonical_quad. split.
    - destruct (inet_pton4 text [] 0 false 0) as [bytes|] eqn:Hrun; [|done].
      intros _.
      destruct (inet_pton4_sound text [] 0%N false 0 bytes)
        as (tmp' & d & -> & Hlen & Hall & Htext);
        [done | lia | intros _; split; [done|lia] | done | done | done |].
      destruct tmp' as [|a [|b [|c [|? ?]]]]; try done.
      apply Forall_cons in Hall as [Ha Hall].
      apply Forall_cons in Hall as [Hb Hall].
      apply Forall_cons in Hall as [Hc Hall].
      apply Forall_cons in Hall as [Hd _].
      exists a, b, c, d. split; [done|].
      rewrite !append_empty_l in Htext. rewrite Htext. cbn [dotted].
      by rewrite !append_assoc, append_empty_l.
    - intros (a & b & c & d & (Ha & Hb & Hc & Hd) & ->).
      rewrite inet_pton4_octet, inet_pton4_dot by (done || lia).
      rewrite inet_pton4_octet, inet_pton4_dot by (done || lia).
      rewrite inet_pton4_octet, inet_pton4_dot by (done || lia).
      rewrite <- (append_empty_r (octet_text d)).
      rewrite inet_pton4_octet by (done || lia). done. }
  split; [exact Hiff|]. split; [|split; [|by vm_compute]].
  - intros text. rewrite <- Hiff. by destruct (isValidIPv4 text).
  - intros text (a & b & c & d & (Ha & Hb & Hc & Hd) & ->)%Hiff.
    exists (octet_text a), (octet_text b), (octet_text c), (octet_text d).
    split; [done|]. repeat split; by apply decimal_octet_octet_text.
Qed.

Lemma isValidIPv4_canonical_quad_witness :
  canonical_quad "10.0.0.255" ∧ isValidIPv4 "10.0.0.255" = true.
Proof.
  assert (Hquad : canonical_quad "10.0.0.255").
  { exists 10%N, 0%N, 0%N, 255%N. split; [lia|]. by vm_compute. }
  split; [exact Hquad|].
  exact (proj2 (proj1 isValidIPv4_canonical_quad "10.0.0.255") Hquad).
Defined.

(** C6, as stated, fails: ["01.2.3.4"] is four dot-separated decimal octets,
    of values 1, 2, 3 and 4, with nothing before, after or between, yet
    [isValidIPv4] is false of it: the scanner refuses a digit after a
    leading zero. *)
Lemma isValidIPv4_leading_zero :
  dotted_quad "01.2.3.4"
  ∧ numeral_value "01" = 1%N
  ∧ isValidIPv4 "01.2.3.4" = false.
Proof.
  split; [|by vm_compute].
  exists "01", "2", "3", "4". split; [reflexivity|].
  repeat split; try discriminate; by vm_compute.
Qed.
(** * Further properties of the code *)

(** ** When the constructor is defined *)

(** A block without a terminator holds no C string. *)
Lemma cstr_of_cells_unterminated (cs : list cell) :
  Forall (λ c : cell, c ≠ Some NUL) cs → cstr_of_cells cs = None.
Proof.
  induction 1 as [|[c|] cs Hc _ IH]; cbn; try done.
  destruct (decide (c = NUL)) as [->|_]; [done|]. by rewrite IH.
Qed.

Lemma TCPConnection_ctor_undefined (ip : ptr) (p : Z) (st : state) :
  read_cstr (heap st) ip = None → TCPConnection_ctor ip p st = Undefined.
Proof.
  intros Hs. unfold TCPConnection_ctor, strlen. run. by rewrite Hs.
Qed.

(** X1: the constructor returns an object exactly when [ip] points at a
    NUL-terminated string of the store.  On a pointer into no live block,
    and on a buffer that holds no terminator from [ip] on, [strlen] runs
    off the end: the behaviour is undefined, and no object is built. *)
Theorem TCPConnection_ctor_defined_iff (ip : ptr) (p : Z) (st : state) :
  ((∃ c st', TCPConnection_ctor ip p st = Normal c st')
   ↔ is_Some (read_cstr (heap st) ip))
  ∧ (heap st !! blk ip = None → TCPConnection_ctor ip p st = Undefined)
  ∧ (∀ cs : list cell, heap st !! blk ip = Some cs →
       Forall (λ c : cell, c ≠ Some NUL) (drop (off ip) cs) →
       TCPConnection_ctor ip p st = Undefined).
Proof.
  split; [split|split].
  - intros (c & st' & Hc).
    destruct (read_cstr (heap st) ip) as [s|] eqn:Hs; [by eexists|].
    by rewrite TCPConnection_ctor_undefined in Hc.
  - intros [s Hs]. eexists _, _. by apply TCPConnection_ctor_spec.
  - intros Hdead. apply TCPConnection_ctor_undefined.
    unfold read_cstr. by rewrite Hdead.
  - intros cs Hlive Hall. apply TCPConnection_ctor_undefined.
    unfold read_cstr. rewrite Hlive. cbn. by apply cstr_of_cells_unterminated.
Qed.

(** A buffer of three characters and no terminator. *)
Lemma TCPConnection_ctor_defined_iff_witness :
  let st := State {[ 1%positive := [Some "a"; Some "b"; Some "c"]%char ]} "" in
  heap st !! blk (Ptr 1 0) = Some ([Some "a"; Some "b"; Some "c"]%char : list cell)
  ∧ Forall (λ c : cell, c ≠ Some NUL)
      (drop (off (Ptr 1 0)) ([Some "a"; Some "b"; Some "c"]%char : list cell))
  ∧ TCPConnection_ctor (Ptr 1 0) 8080 st = Undefined.
Proof.
  cbv zeta.
  assert (Hall : Forall (λ c : cell, c ≠ Some NUL)
                   (drop (off (Ptr 1 0))
                      ([Some "a"; Some "b"; Some "c"]%char : list cell)))
    by (repeat constructor; discriminate).
  split; [reflexivity|]. split; [exact Hall|].
  exact (proj2 (proj2 (TCPConnection_ctor_defined_iff (Ptr 1 0) 8080
           (State {[ 1%positive := [Some "a"; Some "b"; Some "c"]%char ]} "")))
           _ eq_refl Hall).
Defined.

(** ** Several objects, and destruction *)

(** X2: two connections constructed from the same caller's buffer share
    nothing with each other: each has a buffer of its own holding the
    address, and whatever is written over the buffer of one, the other
    displays its address and its port as constructed. *)
Theorem TCPConnection_ctor_twice (ip : ptr) (p1 p2 : Z) (s : string) (st : state) :
  read_cstr (heap st) ip = Some s →
  ∃ c1 c2 st',
    (c1 ← TCPConnection_ctor ip p1;
     c2 ← TCPConnection_ctor ip p2;
     mret (c1, c2)) st = Normal (c1, c2) st'
    ∧ port c1 = p1 ∧ port c2 = p2
    ∧ blk (ipAddress c1) ≠ blk (ipAddress c2)
    ∧ read_cstr (heap st') (ipAddress c1) = Some s
    ∧ read_cstr (heap st') (ipAddress c2) = Some s
    ∧ (∀ (cs' : list cell) (out : string),
         TCPConnection_displayInfo c2
           (State (<[blk (ipAddress c1) := cs']> (heap st')) out) =
         Normal tt
           (State (<[blk (ipAddress c1) := cs']> (heap st'))
              (out +:+ line ("TCP Connection: " +:+ s +:+ ":" +:+ dec p2))))
    ∧ (∀ (cs' : list cell) (out : string),
         TCPConnection_displayInfo c1
           (State (<[blk (ipAddress c2) := cs']> (heap st')) out) =
         Normal tt
           (State (<[blk (ipAddress c2) := cs']> (heap st'))
              (out +:+ line ("TCP Connection: " +:+ s +:+ ":" +:+ dec p1)))).
Proof.
  intros Hs. destruct (read_cstr_live _ _ _ Hs) as (cs & Hlive & Hcs).
  set (b1 := fresh (dom (heap st))).
  set (st1 := State (<[b1 := cells_of_string s]> (heap st)) (cout st)).
  set (b2 := fresh (dom (heap st1))).
  assert (Hne1 : b1 ≠ blk ip) by (apply fresh_block_not_live; eauto).
  assert (Hs1 : read_cstr (heap st1) ip = Some s).
  { rewrite <- Hs. apply read_cstr_agree. cbn. by rewrite lookup_insert_ne. }
  assert (Hne : b2 ≠ b1).
  { apply fresh_block_not_live. cbn. rewrite lookup_insert_eq. eauto. }
  exists {| ipAddress := Ptr b1 0; port := p1 |},
         {| ipAddress := Ptr b2 0; port := p2 |},
         (State (<[b2 := cells_of_string s]> (heap st1)) (cout st1)).
  split.
  { unfold mbind at 1. unfold M_bind at 1.
    rewrite (TCPConnection_ctor_spec ip p1 s st Hs). fold b1 st1.
    unfold mbind at 1. unfold M_bind at 1.
    by rewrite (TCPConnection_ctor_spec ip p2 s st1 Hs1). }
  cbn. split; [done|]. split; [done|]. split; [done|].
  split.
  { eapply read_cstr_block; [done|].
    rewrite lookup_insert_ne by done. by rewrite lookup_insert_eq. }
  split.
  { eapply read_cstr_block; [done|]. by rewrite lookup_insert_eq. }
  split; intros cs' out.
  - apply (TCPConnection_displayInfo_own_block (Build_TCPConnection _ _) s);
      cbn; [|done|eauto].
    rewrite lookup_insert_ne by done. by rewrite lookup_insert_eq.
  - apply (TCPConnection_displayInfo_own_block (Build_TCPConnection _ _) s);
      cbn; [|done|eauto].
    rewrite !lookup_insert_ne by done. by rewrite lookup_insert_eq.
Qed.

Lemma TCPConnection_ctor_twice_witness :
  read_cstr (heap initial_state) lit_ip = Some "192.168.1.1"
  ∧ ∃ c1 c2 st',
      (c1 ← TCPConnection_ctor lit_ip 8080;
       c2 ← TCPConnection_ctor lit_ip 443;
       mret (c1, c2)) initial_state = Normal (c1, c2) st'
      ∧ port c1 = 8080%Z ∧ port c2 = 443%Z
      ∧ blk (ipAddress c1) ≠ blk (ipAddress c2)
      ∧ read_cstr (heap st') (ipAddress c1) = Some "192.168.1.1"
      ∧ read_cstr (heap st') (ipAddress c2) = Some "192.168.1.1"
      ∧ (∀ (cs' : list cell) (out : string),
           TCPConnection_displayInfo c2
             (State (<[blk (ipAddress c1) := cs']> (heap st')) out) =
           Normal tt
             (State (<[blk (ipAddress c1) := cs']> (heap st'))
                (out +:+ line ("TCP Connection: " +:+ "192.168.1.1" +:+ ":"
                               +:+ dec 443))))
      ∧ (∀ (cs' : list cell) (out : string),
           TCPConnection_displayInfo c1
             (State (<[blk (ipAddress c2) := cs']> (heap st')) out) =
           Normal tt
             (State (<[blk (ipAddress c2) := cs']> (heap st'))
                (out +:+ line ("TCP Connection: " +:+ "192.168.1.1" +:+ ":"
                               +:+ dec 8080)))).
Proof.
  split; [reflexivity|].
  apply (TCPConnection_ctor_twice lit_ip 8080%Z 443%Z "192.168.1.1" initial_state).
  reflexivity.
Defined.

(** X3: destroying a [TCPConnection] releases nothing.  After construction
    and destruction the store is the store before with one block more, the
    buffer, which still holds the address: the buffer is never given back. *)
Theorem TCPConnection_dtor_keeps_buffer (ip : ptr) (p : Z) (s : string) (st : state) :
  read_cstr (heap st) ip = Some s →
  ∃ b st',
    (c ← TCPConnection_ctor ip p; TCPConnection_dtor c) st = Normal tt st'
    ∧ heap st !! b = None
    ∧ heap st' !! b = Some (cells_of_string s)
    ∧ heap st ⊆ heap st'
    ∧ size (heap st') = S (size (heap st))
    ∧ cout st' = cout st.
Proof.
  intros Hs. set (b := fresh (dom (heap st))).
  assert (Hb : heap st !! b = None) by apply not_elem_of_dom, is_fresh.
  exists b, (State (<[b := cells_of_string s]> (heap st)) (cout st)).
  split.
  { unfold mbind, M_bind. by rewrite (TCPConnection_ctor_spec ip p s st Hs). }
  cbn. split; [done|]. split; [by rewrite lookup_insert_eq|].
  split; [by apply insert_subseteq|]. split; [|done].
  by apply map_size_insert_None.
Qed.

Lemma TCPConnection_dtor_keeps_buffer_witness :
  read_cstr (heap initial_state) lit_ip = Some "192.168.1.1"
  ∧ ∃ b st',
      (c ← TCPConnection_ctor lit_ip 8080; TCPConnection_dtor c) initial_state
      = Normal tt st'
      ∧ heap initial_state !! b = None
      ∧ heap st' !! b = Some (cells_of_string "192.168.1.1")
      ∧ heap initial_state ⊆ heap st'
      ∧ size (heap st') = S (size (heap initial_state))
      ∧ cout st' = cout initial_state.
Proof.
  split; [reflexivity|].
  apply (TCPConnection_dtor_keeps_buffer lit_ip 8080%Z "192.168.1.1" initial_state).
  reflexivity.
Defined.

(** ** The buffer, cell by cell *)

Lemma cstr_of_cells_no_NUL (cs : list cell) (s : string) :
  cstr_of_cells cs = Some s → ∀ i, String.get i s ≠ Some NUL.
Proof.
  revert s. induction cs as [|[c|] cs IH]; intros s Hs; cbn in Hs; try done.
  destruct (decide (c = NUL)) as [->|Hc].
  - injection Hs as <-. by intros [|i].
  - destruct (cstr_of_cells cs) as [s'|] eqn:Hcs; cbn in Hs; [|done].
    injection Hs as <-. intros [|i]; cbn; [congruence|]. by apply IH.
Qed.

Lemma cells_of_string_lookup (s : string) (i : nat) :
  i < String.length s →
  ∃ x, String.get i s = Some x ∧ cells_of_string s !! i = Some (Some x).
Proof.
  revert i. induction s as [|c s IH]; intros i Hi; cbn in Hi; [lia|].
  destruct i as [|i]; cbn; [by exists c|]. apply IH. lia.
Qed.

Lemma cells_of_string_last (s : string) :
  cells_of_string s !! String.length s = Some (Some NUL).
Proof. induction s as [|c s IH]; [done|]. by cbn. Qed.

(** X4: the buffer is filled exactly.  It has [strlen(ip)+1] cells; cell [i]
    holds character [i] of the address, which is not a terminator; the last
    cell holds the terminator.  No cell is left indeterminate and nothing is
    written past the end. *)
Theorem TCPConnection_ctor_buffer_exact (ip : ptr) (p : Z) (s : string) (st : state) :
  read_cstr (heap st) ip = Some s →
  ∃ c st' (buf : list cell),
    TCPConnection_ctor ip p st = Normal c st'
    ∧ off (ipAddress c) = 0
    ∧ heap st' !! blk (ipAddress c) = Some buf
    ∧ length buf = S (String.length s)
    ∧ (∀ i, i < String.length s →
         ∃ x, String.get i s = Some x ∧ buf !! i = Some (Some x) ∧ x ≠ NUL)
    ∧ buf !! String.length s = Some (Some NUL)
    ∧ Forall (λ c : cell, is_Some c) buf.
Proof.
  intros Hs. destruct (read_cstr_live _ _ _ Hs) as (cs & Hlive & Hcs).
  pose proof (cstr_of_cells_no_NUL _ _ Hcs) as Hfree.
  eexists _, _, (cells_of_string s).
  split; [by apply TCPConnection_ctor_spec|]. cbn.
  split; [done|]. split; [by rewrite lookup_insert_eq|].
  split; [rewrite length_cells_of_string; lia|].
  split.
  { intros i Hi. destruct (cells_of_string_lookup s i Hi) as (x & Hx & Hcell).
    exists x. repeat split; try done. intros ->. by apply (Hfree i). }
  split; [apply cells_of_string_last|].
  clear. induction s as [|c s IH]; cbn; repeat constructor; eauto.
Qed.

Lemma TCPConnection_ctor_buffer_exact_witness :
  read_cstr (heap initial_state) lit_ip = Some "192.168.1.1"
  ∧ ∃ c st' (buf : list cell),
      TCPConnection_ctor lit_ip 8080 initial_state = Normal c st'
      ∧ off (ipAddress c) = 0
      ∧ heap st' !! blk (ipAddress c) = Some buf
      ∧ length buf = S (String.length "192.168.1.1")
      ∧ (∀ i, i < String.length "192.168.1.1" →
           ∃ x, String.get i "192.168.1.1" = Some x
                ∧ buf !! i = Some (Some x) ∧ x ≠ NUL)
      ∧ buf !! String.length "192.168.1.1" = Some (Some NUL)
      ∧ Forall (λ c : cell, is_Some c) buf.
Proof.
  split; [reflexivity|].
  apply (TCPConnection_ctor_buffer_exact lit_ip 8080%Z "192.168.1.1" initial_state).
  reflexivity.
Defined.

(** ** The text of the line *)



Lemma count_char_append (c : ascii) (a b : string) :
  count_char c (a +:+ b) = count_char c a + count_char c b.
Proof.
  induction a as [|x a IH]; [done|]. rewrite append_cons. cbn.
  rewrite IH. lia.
Qed.

Lemma count_char_digit (c x : ascii) (s : string) :
  is_digit c = false → is_digit x = true →
  count_char c (String x s) = count_char c s.
Proof.
  intros Hc Hx. cbn. destruct (decide (x = c)) as [->|_]; [congruence|done].
Qed.

Lemma count_char_string_of_uint (c : ascii) (d : Decimal.uint) :
  is_digit c = false → count_char c (NilEmpty.string_of_uint d) = 0.
Proof.
  intros Hc. induction d; cbn [NilEmpty.string_of_uint]; [done|..];
    by rewrite count_char_digit.
Qed.

(** A character that is neither a digit nor the sign does not occur in the
    decimal rendering of an [int]. *)
Lemma count_char_dec (c : ascii) (n : Z) :
  is_digit c = false → c ≠ "-"%char → count_char c (dec n) = 0.
Proof.
  intros Hc Hsign. unfold dec, NilZero.string_of_int.
  assert (Hu : ∀ d, count_char c (NilZero.string_of_uint d) = 0).
  { intros d. unfold NilZero.string_of_uint.
    destruct d; try by apply count_char_string_of_uint.
    by rewrite count_char_digit. }
  destruct (Z.to_int n) as [d|d]; [apply Hu|].
  cbn. destruct (decide _) as [Heq|_]; [by symmetry in Heq|]. apply Hu.
Qed.





(** X6: [displayInfo] prints one terminated line.  What it appends ends with
    the line terminator, and the text before the terminator has exactly the
    line breaks of the address: none when the address has none. *)
Theorem TCPConnection_display_one_line (c : TCPConnection) (s : string) (st : state) :
  read_cstr (heap st) (ipAddress c) = Some s →
  ∃ body,
    TCPConnection_displayInfo c st =
    Normal tt (State (heap st) (cout st +:+ body +:+ newline))
    ∧ count_char "010" body = count_char "010" s.
Proof.
  intros Hs. exists ("TCP Connection: " +:+ s +:+ ":" +:+ dec (port c)).
  split; [by apply TCPConnection_displayInfo_spec|].
  rewrite !count_char_append, count_char_dec by done.
  change (count_char "010" "TCP Connection: ") with 0.
  change (count_char "010" ":") with 0. lia.
Qed.

Lemma TCPConnection_display_one_line_witness :
  let c := {| ipAddress := lit_ip; port := 8080 |} in
  read_cstr (heap initial_state) (ipAddress c) = Some "192.168.1.1"
  ∧ ∃ body,
      TCPConnection_displayInfo c initial_state =
      Normal tt (State (heap initial_state) (cout initial_state +:+ body +:+ newline))
      ∧ count_char "010" body = count_char "010" "192.168.1.1".
Proof.
  cbv zeta. split; [reflexivity|].
  apply (TCPConnection_display_one_line
           {| ipAddress := lit_ip; port := 8080 |} "192.168.1.1" initial_state).
  reflexivity.
Defined.

(** X7: [displayInfo] can be repeated.  Two calls in a row print the same
    line twice, one after the other, and leave the store as it was. *)
Theorem TCPConnection_display_twice (c : TCPConnection) (s : string) (st : state) :
  read_cstr (heap st) (ipAddress c) = Some s →
  (TCPConnection_displayInfo c ;; TCPConnection_displayInfo c) st =
  Normal tt
    (State (heap st)
       (cout st
        +:+ line ("TCP Connection: " +:+ s +:+ ":" +:+ dec (port c))
        +:+ line ("TCP Connection: " +:+ s +:+ ":" +:+ dec (port c)))).
Proof.
  intros Hs. unfold mbind, M_bind.
  rewrite (TCPConnection_displayInfo_spec c s st Hs).
  rewrite (TCPConnection_displayInfo_spec c s (State _ _) Hs). cbn.
  by rewrite append_assoc.
Qed.

Lemma TCPConnection_display_twice_witness :
  let c := {| ipAddress := lit_ip; port := 8080 |} in
  read_cstr (heap initial_state) (ipAddress c) = Some "192.168.1.1"
  ∧ (TCPConnection_displayInfo c ;; TCPConnection_displayInfo c) initial_state =
    Normal tt
      (State (heap initial_state)
         (cout initial_state
          +:+ line ("TCP Connection: " +:+ "192.168.1.1" +:+ ":" +:+ dec (port c))
          +:+ line ("TCP Connection: " +:+ "192.168.1.1" +:+ ":" +:+ dec (port c)))).
Proof.
  cbv zeta. split; [reflexivity|].
  apply (TCPConnection_display_twice
           {| ipAddress := lit_ip; port := 8080 |} "192.168.1.1" initial_state).
  reflexivity.
Defined.

(** ** The program, when [printSystemInfo] does not return *)

(** X8: [main] has no handler.  When [printSystemInfo], called after the
    banner line, throws, [main] ends with that exception and in the state
    the throw left: no connection is constructed and nothing more is
    printed.  When the call's behaviour is undefined, so is that of
    [main]. *)
Theorem main_propagates (printSystemInfo : M unit) (st0 : state) :
  (∀ e st1,
     printSystemInfo
       (State (heap st0) (cout st0 +:+ line "=== Network Monitor ===")) =
     Raise e st1 →
     main printSystemInfo st0 = Raise e st1)
  ∧ (printSystemInfo
       (State (heap st0) (cout st0 +:+ line "=== Network Monitor ===")) =
     Undefined →
     main printSystemInfo st0 = Undefined).
Proof.
  unfold line. rewrite <- append_assoc.
  split; [intros e st1 H|intros H];
    unfold main, cout_endl, cout_put at 1; run; by rewrite H.
Qed.

(** A [printSystemInfo] that prints a line and throws. *)
Lemma main_propagates_witness :
  let printSystemInfo : M unit :=
    cout_put "no system information" ;; cout_endl ;;
    ((λ st, Raise InvalidArgument st) : M unit) in
  let st1 := State static_storage
               (line "=== Network Monitor ===" +:+ line "no system information") in
  printSystemInfo
    (State (heap initial_state)
       (cout initial_state +:+ line "=== Network Monitor ===")) =
  Raise InvalidArgument st1
  ∧ main printSystemInfo initial_state = Raise InvalidArgument st1.
Proof.
  cbv zeta. split; [vm_compute; reflexivity|].
  apply (proj1 (main_propagates _ initial_state)). vm_compute. reflexivity.
Defined.
